(** * John Snow cholera dashboard: a shallow embedding of
      [johnsnow_dashboard_app.py] and the properties of its
      data-to-map pipeline.

    The script reads two tabular point sources and one polygon source,
    builds a folium map from them under the sidebar's control state and
    shows two summary counts.  Numbers are exact rationals ([Q]); the
    rounding of Python floats is not modelled, and pandas' NaN (the mean
    of an empty column) is [None].  Calls into pandas, geopandas and
    folium are modelled by the data they build; the reprojection and
    the rendering of the map are parameters that may raise, and
    [folium.Map] raises on a centre that holds a NaN. *)

From Stdlib Require Import List String ZArith QArith Bool Lia Sorted.
Import ListNotations.
Open Scope string_scope.
Open Scope list_scope.

Set Implicit Arguments.

(** ** Data model *)

Module Data.

(** A polygon ring: the ordered coordinates of a boundary. *)
Definition Polygon := list (Q * Q).

(** A table cell. *)
Inductive value :=
| VNum (q : Q)
| VStr (s : string)
| VGeom (g : Polygon).

(** [shapely.geometry.Point(x, y)]. *)
Record Point := mkPoint { geom_x : Q; geom_y : Q }.

(** One row of a tabular point source ([pd.read_excel]): the numeric
    columns [x] and [y], and whatever other columns the sheet has. *)
Record Row := mkRow {
  row_x : Q;
  row_y : Q;
  row_attrs : list (string * value)
}.

Definition DataFrame := list Row.

(** [df["x"]] and [df["y"]]. *)
Definition column_x (df : DataFrame) : list Q := map row_x df.
Definition column_y (df : DataFrame) : list Q := map row_y df.

(** A GeoDataFrame of points: every row of the frame it was built from,
    next to its geometry, and the declared reference system. *)
Record PointGDF := mkPointGDF {
  point_rows : list (Row * Point);
  point_crs : string
}.

(** A GeoDataFrame of polygons as [gpd.read_file] returns it: the column
    names in file order (the geometry column is called [geometry]), the
    rows as cells in column order, and the declared reference system. *)
Record AreaGDF := mkAreaGDF {
  columns : list string;
  area_rows : list (list value);
  crs : string
}.

(** [gdf.geometry], [gdf.geometry.x] and [gdf.geometry.y]. *)
Definition geometry (gdf : PointGDF) : list Point := map snd (point_rows gdf).
Definition geometry_x (gdf : PointGDF) : list Q := map geom_x (geometry gdf).
Definition geometry_y (gdf : PointGDF) : list Q := map geom_y (geometry gdf).

(** [len(gdf)]. *)
Definition len (gdf : PointGDF) : nat := List.length (point_rows gdf).

Definition Qsum (l : list Q) : Q := fold_right Qplus 0%Q l.

(** [Series.mean()]: the sum over the count, NaN ([None]) when the
    series is empty.  This is the exact mean: pandas computes it in
    binary floating point, and its rounding and overflow are not
    modelled, so nothing below speaks of the last digits of a centre. *)
Definition mean (l : list Q) : option Q :=
  match l with
  | [] => None
  | _ :: _ => Some (Qsum l / inject_Z (Z.of_nat (List.length l)))%Q
  end.

End Data.
Export Data.

(** ** Python results *)

(** A Python exception, named by its class. *)
Inductive exception := Exception (class_name : string).

Inductive result (A : Type) :=
| Returned (a : A)
| Raised (e : exception).
Arguments Returned {A} a.
Arguments Raised {A} e.

(** ** Loading *)

Module Loader.

Definition EPSG4326 : string := "EPSG:4326".

(** [gpd.GeoDataFrame(df, geometry=..., crs=...)]. *)
Definition GeoDataFrame (df : DataFrame) (geoms : list Point) (c : string)
  : PointGDF :=
  {| point_rows := combine df geoms; point_crs := c |}.

(** [[Point(xy) for xy in zip(df["y"], df["x"])]]. *)
Definition points_of (df : DataFrame) : list Point :=
  map (fun xy : Q * Q => mkPoint (fst xy) (snd xy))
      (combine (column_y df) (column_x df)).

(** [load_data], applied to the two sheets [pd.read_excel] returned. *)
Definition load_data (deaths_df pumps_df : DataFrame) : PointGDF * PointGDF :=
  let deaths_gdf := GeoDataFrame deaths_df (points_of deaths_df) EPSG4326 in
  let pumps_gdf := GeoDataFrame pumps_df (points_of pumps_df) EPSG4326 in
  (deaths_gdf, pumps_gdf).

Section Reprojection.

(** [GeoDataFrame.to_crs]: geopandas' reprojection, which may raise. *)
Variable to_crs : AreaGDF -> string -> result AreaGDF.

(** [load_area_shapefile], applied to what [gpd.read_file] returned. *)
Definition load_area_shapefile (polys : AreaGDF) : result AreaGDF :=
  let area_gdf := polys in
  if negb (crs area_gdf =? EPSG4326)
  then to_crs area_gdf EPSG4326
  else Returned area_gdf.

End Reprojection.

End Loader.
Export Loader.

(** ** Folium elements *)

Module Folium.

(** [folium.Icon(color=..., icon=..., prefix=...)]. *)
Record Icon := mkIcon {
  icon_color : string;
  icon_name : string;
  icon_prefix : string
}.

(** The two kinds of point marker the script creates. *)
Inductive marker :=
| CircleMarker (location : Q * Q) (radius : Z) (color : string)
               (fill : bool) (fill_opacity : Q) (popup : string)
| Marker (location : Q * Q) (popup : string) (icon : Icon).

(** The dictionary a style function returns. *)
Record Style := mkStyle {
  fillColor : string;
  strokeColor : string;
  weight : Z;
  fillOpacity : Q
}.

(** One feature of the GeoJSON text [GeoDataFrame.to_json] produces. *)
Record Feature := mkFeature {
  properties : list (string * value);
  feature_geometry : option value
}.

(** [folium.GeoJsonTooltip(fields=..., aliases=...)]. *)
Record GeoJsonTooltip := mkTooltip {
  fields : list string;
  aliases : list string
}.

(** What can be added to a map.  A marker can be added to the map itself
    ([Child]) or to a cluster that is on the map. *)
Inductive element :=
| TileLayer (tiles : string) (name : string) (attr : option string)
            (overlay : bool) (control : bool)
| MarkerCluster (name : string) (markers : list marker)
| Child (mk : marker)
| GeoJson (data : list Feature) (name : string)
          (style_function : Feature -> Style) (tooltip : GeoJsonTooltip)
| LayerControl.

(** [folium.Map(location=[lat, lon], zoom_start=..., tiles=...)] and the
    children added to it so far, oldest first. *)
Record Map := mkMap {
  location : option Q * option Q;
  zoom_start : Z;
  map_tiles : option string;
  children : list element
}.

End Folium.
Export Folium.

(** ** GeoJSON export and what folium shows *)

Module Render.

(** The feature [GeoDataFrame.to_json] writes for one row: every column
    but the geometry column becomes a property, in column order. *)
Definition to_feature (cols : list string) (row : list value) : Feature :=
  {| properties :=
       filter (fun cv => negb (fst cv =? "geometry")) (combine cols row);
     feature_geometry :=
       option_map snd
         (find (fun cv => fst cv =? "geometry") (combine cols row)) |}.

(** [gdf.to_json()]. *)
Definition to_json (gdf : AreaGDF) : list Feature :=
  map (to_feature (columns gdf)) (area_rows gdf).

(** A property of a feature, by name. *)
Fixpoint property (props : list (string * value)) (field : string)
  : option value :=
  match props with
  | [] => None
  | (k, v) :: rest => if k =? field then Some v else property rest field
  end.

(** The lines a [GeoJsonTooltip] shows over one feature: for each field,
    its alias and the feature's property of that name. *)
Definition tooltip_lines (tt : GeoJsonTooltip) (f : Feature)
  : list (string * option value) :=
  map (fun fa : string * string => (snd fa, property (properties f) (fst fa)))
      (combine (fields tt) (aliases tt)).



(** The three data layers of the dashboard. *)
Inductive layer := Deaths | Pumps | Areas.



(** The data layer a child of the map belongs to, if any. *)
Definition layer_of (e : element) : option layer :=
  match e with
  | MarkerCluster _ _ => Some Deaths
  | Child (CircleMarker _ _ _ _ _ _) => Some Deaths
  | Child (Marker _ _ _) => Some Pumps
  | GeoJson _ _ _ _ => Some Areas
  | TileLayer _ _ _ _ _ => None
  | LayerControl => None
  end.



Definition is_tile_layer (e : element) : bool :=
  match e with TileLayer _ _ _ _ _ => true | _ => false end.

(** The tile layers on the map, and everything else on it. *)
Definition tile_layers (mp : Map) : list element :=
  filter is_tile_layer (children mp).
Definition non_tile_children (mp : Map) : list element :=
  filter (fun e => negb (is_tile_layer e)) (children mp).

End Render.
Export Render.

(** ** The script *)

Module Dashboard.

(** The sidebar's widgets. *)
Record ControlState := mkControl {
  show_deaths : bool;
  show_pumps : bool;
  show_area : bool;
  basemap_choice : string
}.

(** The module-level variables of the script once the data is loaded and
    the map is created. *)
Record Store := mkStore {
  deaths_gdf : PointGDF;
  pumps_gdf : PointGDF;
  area_gdf : AreaGDF;
  m : Map
}.

(** Statements of the script: state passing over the store. *)
Definition Script (A : Type) : Type := Store -> A * Store.

Definition ret {A : Type} (a : A) : Script A := fun s => (a, s).

Definition bind {A B : Type} (c : Script A) (k : A -> Script B) : Script B :=
  fun s => let (a, s') := c s in k a s'.

Notation "x <- c ;; k" := (bind c (fun x => k))
  (at level 61, c at next level, right associativity).
Notation "c ;; k" := (bind c (fun _ => k))
  (at level 61, right associativity).

Definition read {A : Type} (f : Store -> A) : Script A := fun s => (f s, s).

Definition when (b : bool) (c : Script unit) : Script unit :=
  if b then c else ret tt.

Fixpoint for_each {A : Type} (l : list A) (body : A -> Script unit)
  : Script unit :=
  match l with
  | [] => ret tt
  | a :: rest => body a ;; for_each rest body
  end.

Definition exec {A : Type} (c : Script A) (s : Store) : Store := snd (c s).

Definition with_children (mp : Map) (cs : list element) : Map :=
  {| location := location mp; zoom_start := zoom_start mp;
     map_tiles := map_tiles mp; children := cs |}.

Definition with_m (s : Store) (mp : Map) : Store :=
  {| deaths_gdf := deaths_gdf s; pumps_gdf := pumps_gdf s;
     area_gdf := area_gdf s; m := mp |}.

(** [f] applied to the element at position [n], if there is one. *)
Fixpoint adjust {A : Type} (f : A -> A) (n : nat) (l : list A) : list A :=
  match l, n with
  | [], _ => []
  | a :: rest, O => f a :: rest
  | a :: rest, S n' => a :: adjust f n' rest
  end.

Definition cluster_add (mk : marker) (e : element) : element :=
  match e with
  | MarkerCluster name ms => MarkerCluster name (ms ++ [mk])
  | _ => e
  end.

(** [e.add_to(m)]: [e] becomes the last child of the map; the result is
    the position it has there, by which the script can reach it later. *)
Definition add_to_m (e : element) : Script nat :=
  fun s => (List.length (children (m s)),
            with_m s (with_children (m s) (children (m s) ++ [e]))).

(** [mk.add_to(cluster)] for the cluster at position [h] of the map: the
    cluster on the map gets one more marker. *)
Definition add_to_cluster (h : nat) (mk : marker) : Script unit :=
  fun s => (tt, with_m s (with_children (m s)
                            (adjust (cluster_add mk) h (children (m s))))).

Definition esri_tiles : string :=
  "https://server.arcgisonline.com/ArcGIS/rest/services/World_Imagery/MapServer/tile/{z}/{y}/{x}".

(** The [if]/[elif] chain over [basemap_choice]; it has no [else]. *)
Definition add_basemap (choice : string) : Script unit :=
  if choice =? "OpenStreetMap" then
    add_to_m (TileLayer "OpenStreetMap" "OpenStreetMap" None false true) ;;
    ret tt
  else if choice =? "CartoDB Positron" then
    add_to_m (TileLayer "CartoDB Positron" "CartoDB Positron" None false true) ;;
    ret tt
  else if choice =? "Esri WorldImagery" then
    add_to_m (TileLayer esri_tiles "Esri WorldImagery" (Some "Esri") false true) ;;
    ret tt
  else ret tt.

Definition death_marker (row : Row * Point) : marker :=
  CircleMarker (geom_y (snd row), geom_x (snd row)) 3 "red" true (7 # 10)
               "Death Location".

Definition add_cholera_deaths (show : bool) : Script unit :=
  when show (
    death_cluster <- add_to_m (MarkerCluster "Cholera Deaths" []) ;;
    rows <- read (fun s => point_rows (deaths_gdf s)) ;;
    for_each rows (fun row => add_to_cluster death_cluster (death_marker row))).

Definition pump_marker (row : Row * Point) : marker :=
  Marker (geom_y (snd row), geom_x (snd row)) "Water Pump"
         (mkIcon "blue" "tint" "fa").

Definition add_water_pumps (show : bool) : Script unit :=
  when show (
    rows <- read (fun s => point_rows (pumps_gdf s)) ;;
    for_each rows (fun row => add_to_m (Child (pump_marker row)) ;; ret tt)).

Definition area_style (feature : Feature) : Style :=
  {| fillColor := "orange"; strokeColor := "orange"; weight := 2;
     fillOpacity := 2 # 10 |}.

(** [[col for col in area_gdf.columns if col != 'geometry']]. *)
Definition attribute_columns (gdf : AreaGDF) : list string :=
  filter (fun col => negb (col =? "geometry")) (columns gdf).

Definition area_layer (gdf : AreaGDF) : element :=
  GeoJson (to_json gdf) "Cholera Area Polygons" area_style
          (mkTooltip (attribute_columns gdf) (attribute_columns gdf)).

Definition add_area_polygons (show : bool) : Script unit :=
  when show (
    gdf <- read area_gdf ;;
    add_to_m (area_layer gdf) ;;
    ret tt).

(** [deaths_gdf.geometry.y.mean()] and [deaths_gdf.geometry.x.mean()]. *)
Definition center_lat (deaths : PointGDF) : option Q :=
  mean (geometry_y deaths).
Definition center_lon (deaths : PointGDF) : option Q :=
  mean (geometry_x deaths).

(** [folium.Map(location=..., zoom_start=..., tiles=...)]: folium refuses
    a location that holds a NaN with a ValueError, and otherwise returns
    a map without children. *)
Definition folium_Map (loc : option Q * option Q) (zoom : Z)
           (tiles : option string) : result Map :=
  match loc with
  | (Some _, Some _) => Returned (mkMap loc zoom tiles [])
  | _ => Raised (Exception "ValueError")
  end.

(** The store after the map is created, when folium has accepted its
    centre: the centre is the mean of the death geometries, the zoom 16,
    and the map has no tiles yet. *)
Definition create_map (deaths pumps : PointGDF) (area : AreaGDF) : Store :=
  let center_lat := mean (geometry_y deaths) in
  let center_lon := mean (geometry_x deaths) in
  {| deaths_gdf := deaths; pumps_gdf := pumps; area_gdf := area;
     m := mkMap (center_lat, center_lon) 16 None [] |}.

(** Everything the script adds to the map, in program order. *)
Definition build_map (cs : ControlState) : Script unit :=
  add_basemap (basemap_choice cs) ;;
  add_cholera_deaths (show_deaths cs) ;;
  add_water_pumps (show_pumps cs) ;;
  add_area_polygons (show_area cs) ;;
  add_to_m LayerControl ;;
  ret tt.

(** What the page shows: the map and the two metrics. *)
Record Page := mkPage {
  st_folium : Map;
  total_death_points : nat;
  total_water_pumps : nat
}.

Definition show_page : Script Page :=
  mp <- read m ;;
  deaths <- read deaths_gdf ;;
  pumps <- read pumps_gdf ;;
  ret (mkPage mp (len deaths) (len pumps)).

(** The script from the map's creation to the summary. *)
Definition dashboard (cs : ControlState) (deaths pumps : PointGDF)
           (area : AreaGDF) : Page * Store :=
  (build_map cs ;; show_page) (create_map deaths pumps area).

Section App.

Variable to_crs : AreaGDF -> string -> result AreaGDF.

(** [st_folium(m, ...)]: the page renders the map, which may raise. *)
Variable render : Map -> result unit.

(** The whole script over the tables the file readers returned.  It
    stops at the first exception: of the loading, of the map's creation
    or of the rendering; the two metrics are shown after the map. *)
Definition app (cs : ControlState) (deaths_df pumps_df : DataFrame)
           (polys : AreaGDF) : result Page :=
  let (deaths, pumps) := load_data deaths_df pumps_df in
  match load_area_shapefile to_crs polys with
  | Raised e => Raised e
  | Returned area =>
      match folium_Map (center_lat deaths, center_lon deaths) 16 None with
      | Raised e => Raised e
      | Returned mp =>
          let page :=
            fst ((build_map cs ;; show_page)
                   (mkStore deaths pumps area mp)) in
          match render (st_folium page) with
          | Raised e => Raised e
          | Returned _ => Returned page
          end
      end
  end.

End App.

End Dashboard.
Export Dashboard.

(** ** What the script puts on the map, as plain lists *)

Module Layers.

(** The tile layer the [if]/[elif] chain adds for a choice. *)
Definition basemap_layers (choice : string) : list element :=
  if choice =? "OpenStreetMap" then
    [TileLayer "OpenStreetMap" "OpenStreetMap" None false true]
  else if choice =? "CartoDB Positron" then
    [TileLayer "CartoDB Positron" "CartoDB Positron" None false true]
  else if choice =? "Esri WorldImagery" then
    [TileLayer esri_tiles "Esri WorldImagery" (Some "Esri") false true]
  else [].

Definition deaths_layers (show : bool) (deaths : PointGDF) : list element :=
  if show
  then [MarkerCluster "Cholera Deaths" (map death_marker (point_rows deaths))]
  else [].

Definition pumps_layers (show : bool) (pumps : PointGDF) : list element :=
  if show
  then map (fun row => Child (pump_marker row)) (point_rows pumps)
  else [].

Definition areas_layers (show : bool) (area : AreaGDF) : list element :=
  if show then [area_layer area] else [].

(** The data layers and the control, for a control state and a dataset. *)
Definition overlay_children (cs : ControlState) (deaths pumps : PointGDF)
           (area : AreaGDF) : list element :=
  deaths_layers (show_deaths cs) deaths
  ++ pumps_layers (show_pumps cs) pumps
  ++ areas_layers (show_area cs) area
  ++ [LayerControl].

(** A script [c] only ever appends [es] to the map's children and writes
    nothing else of the store. *)
Definition appends {A : Type} (c : Script A) (es : Store -> list element)
  : Prop :=
  forall s, snd (c s) =
            with_m s (with_children (m s) (children (m s) ++ es s)).

(** [es] reads the datasets only, not the map. *)
Definition map_blind (es : Store -> list element) : Prop :=
  forall s mp, es (with_m s mp) = es s.



(** The three toggles as a predicate on data layers. *)
Definition enabled (cs : ControlState) (l : layer) : bool :=
  match l with
  | Deaths => show_deaths cs
  | Pumps => show_pumps cs
  | Areas => show_area cs
  end.

(** The map the page shows for a control state and a loaded dataset. *)
Definition rendered_map (cs : ControlState) (deaths pumps : PointGDF)
           (area : AreaGDF) : Map :=
  st_folium (fst (dashboard cs deaths pumps area)).

End Layers.
Export Layers.

(** ** The specification's reading of the centre and of the basemap *)

Module Spec.

(** The latitudes and longitudes of the point layers that are switched
    on, deaths before pumps. *)
Definition enabled_latitudes (cs : ControlState) (deaths pumps : PointGDF)
  : list Q :=
  (if show_deaths cs then geometry_y deaths else [])
  ++ (if show_pumps cs then geometry_y pumps else []).

Definition enabled_longitudes (cs : ControlState) (deaths pumps : PointGDF)
  : list Q :=
  (if show_deaths cs then geometry_x deaths else [])
  ++ (if show_pumps cs then geometry_x pumps else []).

(** The centre as the specification words it: the mean over all enabled
    point layers, and the mean over the whole dataset when nothing is
    enabled or the enabled layers are empty. *)
Definition spec_center (cs : ControlState) (deaths pumps : PointGDF)
  : option Q * option Q :=
  match enabled_latitudes cs deaths pumps with
  | [] => (mean (geometry_y deaths ++ geometry_y pumps),
           mean (geometry_x deaths ++ geometry_x pumps))
  | _ :: _ => (mean (enabled_latitudes cs deaths pumps),
               mean (enabled_longitudes cs deaths pumps))
  end.


(** Two coordinates name the same number, or are both undefined. *)
Definition same_coordinate (a b : option Q) : Prop :=
  match a, b with
  | Some p, Some q => (p == q)%Q
  | None, None => True
  | _, _ => False
  end.

Definition same_center (a b : option Q * option Q) : Prop :=
  same_coordinate (fst a) (fst b) /\ same_coordinate (snd a) (snd b).


(** The attribute fields of a polygon row as the specification lists
    them: every column but the geometry, in column order, each name with
    its value. *)
Definition attribute_pairs (cols : list string) (row : list value)
  : list (string * option value) :=
  map (fun cv : string * value => (fst cv, Some (snd cv)))
      (filter (fun cv => negb (fst cv =? "geometry")) (combine cols row)).



End Spec.
Export Spec.

(** ** The scenario of the specification *)

Module Scenario.

Definition deaths_df : DataFrame :=
  [ mkRow (515 # 10) (-1 # 10) [];
    mkRow (5151 # 100) (-12 # 100) [];
    mkRow (5149 # 100) (-9 # 100) [] ].

Definition pumps_df : DataFrame := [ mkRow (515 # 10) (-1 # 10) [] ].

Definition polys : AreaGDF :=
  mkAreaGDF ["name"; "cases"; "geometry"]
            [ [VStr "Soho"; VNum 12; VGeom [(0, 0); (0, 1); (1, 1)]%Q];
              [VStr "Golden Square"; VNum 7; VGeom [(1, 1); (1, 2); (2, 2)]%Q] ]
            "EPSG:4326".

Definition all_layers (basemap : string) : ControlState :=
  mkControl true true true basemap.

(** A reprojection that is visibly not the identity: it moves every
    vertex and declares the requested system. *)
Definition shift_value (v : value) : value :=
  match v with
  | VGeom g => VGeom (map (fun xy : Q * Q => (fst xy + 1, snd xy + 1)%Q) g)
  | other => other
  end.

Definition shifting_to_crs (gdf : AreaGDF) (target : string)
  : result AreaGDF :=
  Returned (mkAreaGDF (columns gdf)
                      (map (map shift_value) (area_rows gdf)) target).

(** A renderer that makes the check folium makes on a GeoJSON tooltip:
    every field must be a property name of the layer's first feature,
    the names [style] and [highlight] apart; a layer without features
    has no property names. *)
Definition tooltip_keys (data : list Feature) : list string :=
  match data with
  | [] => []
  | f :: _ =>
      filter (fun k => negb ((k =? "style") || (k =? "highlight")))
             (map fst (properties f))
  end.

Definition tooltip_fits (e : element) : bool :=
  match e with
  | GeoJson data _ _ tip =>
      forallb (fun field => existsb (String.eqb field) (tooltip_keys data))
              (fields tip)
  | _ => true
  end.

Definition checking_render (mp : Map) : result unit :=
  if forallb tooltip_fits (children mp)
  then Returned tt
  else Raised (Exception "AssertionError").

(** The same polygons as a file in the British national grid. *)
Definition polys_osgb : AreaGDF :=
  mkAreaGDF (columns polys) (area_rows polys) "EPSG:27700".


End Scenario.

(** ** Counting what is on the map *)

Module Counting.

(** A marker that is a child of the map itself. *)
Definition is_bare_marker (e : element) : bool :=
  match e with Child _ => true | _ => false end.

(** The markers of the clusters on the map, cluster after cluster. *)
Definition clustered_markers (mp : Map) : list marker :=
  flat_map (fun e => match e with MarkerCluster _ ms => ms | _ => [] end)
           (children mp).

(** The markers that are children of the map itself. *)
Definition bare_markers (mp : Map) : list marker :=
  flat_map (fun e => match e with Child mk => [mk] | _ => [] end)
           (children mp).

(** Where a marker is drawn. *)
Definition marker_location (mk : marker) : Q * Q :=
  match mk with
  | CircleMarker loc _ _ _ _ _ => loc
  | Marker loc _ _ => loc
  end.

(** The latitude and longitude the script draws a table row at. *)
Definition row_location (r : Row) : Q * Q := (row_x r, row_y r).

(** A child stays on the map under a control state: children of a data
    layer stay when the layer is enabled, all others always. *)
Definition kept (cs : ControlState) (e : element) : bool :=
  match layer_of e with
  | Some l => enabled cs l
  | None => true
  end.

End Counting.
Export Counting.

(** ** Lists *)

Section ListFacts.

Context {A B : Type}.

Lemma adjust_middle (f : A -> A) (pre : list A) (a : A) (post : list A) :
  adjust f (List.length pre) (pre ++ a :: post) = pre ++ f a :: post.
Proof.
  induction pre as [|p pre IH]; simpl.
  - reflexivity.
  - now rewrite IH.
Qed.

Lemma map_fst_combine (l : list A) (l' : list B) :
  List.length l = List.length l' -> map fst (combine l l') = l.
Proof.
  revert l'; induction l as [|a l IH]; intros [|b l'] Hlen;
    simpl in *; try discriminate; try reflexivity.
  f_equal. apply IH. lia.
Qed.

Lemma map_combine_diag (g : A -> A -> B) (l : list A) :
  map (fun p : A * A => g (fst p) (snd p)) (combine l l)
  = map (fun a => g a a) l.
Proof.
  induction l as [|a l IH]; simpl; [reflexivity | now rewrite IH].
Qed.

Lemma filter_on_fst (p : A -> bool) (l : list (A * B)) :
  map fst (filter (fun ab => p (fst ab)) l) = filter p (map fst l).
Proof.
  induction l as [|[a b] l IH]; simpl; [reflexivity|].
  destruct (p a); simpl; now rewrite IH.
Qed.

End ListFacts.

(** ** The loader *)

Section LoaderFacts.

Lemma points_of_rows (df : DataFrame) :
  points_of df = map (fun r => mkPoint (row_y r) (row_x r)) df.
Proof.
  unfold points_of, column_x, column_y.
  induction df as [|r df IH]; simpl; [reflexivity | now rewrite IH].
Qed.

Lemma combine_with_image (X Y : Type) (f : X -> Y) (l : list X) :
  combine l (map f l) = map (fun a => (a, f a)) l.
Proof.
  induction l as [|a l IH]; simpl; [reflexivity | now rewrite IH].
Qed.

Lemma GeoDataFrame_rows (df : DataFrame) (c : string) :
  point_rows (GeoDataFrame df (points_of df) c)
  = map (fun r => (r, mkPoint (row_y r) (row_x r))) df.
Proof.
  unfold GeoDataFrame; simpl.
  rewrite points_of_rows. apply combine_with_image.
Qed.

Lemma loaded_geometry_y (df : DataFrame) (c : string) :
  geometry_y (GeoDataFrame df (points_of df) c) = column_x df.
Proof.
  unfold geometry_y, geometry. rewrite GeoDataFrame_rows.
  unfold column_x. rewrite !map_map. reflexivity.
Qed.

Lemma loaded_geometry_x (df : DataFrame) (c : string) :
  geometry_x (GeoDataFrame df (points_of df) c) = column_y df.
Proof.
  unfold geometry_x, geometry. rewrite GeoDataFrame_rows.
  unfold column_y. rewrite !map_map. reflexivity.
Qed.

Lemma loaded_len (df : DataFrame) (c : string) :
  len (GeoDataFrame df (points_of df) c) = List.length df.
Proof.
  unfold len. rewrite GeoDataFrame_rows. apply length_map.
Qed.

End LoaderFacts.

(** ** The script appends to the map and writes nothing else *)

Section ScriptFacts.

Lemma store_eta (s : Store) :
  with_m s (with_children (m s) (children (m s))) = s.
Proof. destruct s as [d p a [loc z t ch]]. reflexivity. Qed.

Lemma appends_ret (A : Type) (a : A) : appends (ret a) (fun _ => []).
Proof.
  intro s. simpl. rewrite app_nil_r. symmetry. apply store_eta.
Qed.

Lemma appends_read (A : Type) (f : Store -> A) :
  appends (read f) (fun _ => []).
Proof.
  intro s. simpl. rewrite app_nil_r. symmetry. apply store_eta.
Qed.

Lemma appends_add_to_m (e : element) : appends (add_to_m e) (fun _ => [e]).
Proof. intro s. reflexivity. Qed.

Lemma appends_bind (A B : Type) (c : Script A) (k : A -> Script B)
      (es1 es2 : Store -> list element) :
  appends c es1 ->
  (forall s, appends (k (fst (c s))) (fun _ => es2 s)) ->
  appends (bind c k) (fun s => es1 s ++ es2 s).
Proof.
  intros Hc Hk s. unfold bind.
  specialize (Hc s). specialize (Hk s).
  destruct (c s) as [a s'] eqn:Hcs. simpl in Hc, Hk.
  rewrite Hk. subst s'. simpl. now rewrite app_assoc.
Qed.

Lemma appends_ext (A : Type) (c : Script A) (es es' : Store -> list element) :
  (forall s, es s = es' s) -> appends c es -> appends c es'.
Proof. intros Heq Hc s. rewrite <- Heq. apply Hc. Qed.

Lemma appends_seq (A B : Type) (c : Script A) (k : A -> Script B)
      (es1 es2 : Store -> list element) :
  appends c es1 ->
  (forall a, appends (k a) es2) ->
  map_blind es2 ->
  appends (bind c k) (fun s => es1 s ++ es2 s).
Proof.
  intros Hc Hk Hblind s. unfold bind.
  specialize (Hc s).
  destruct (c s) as [a s'] eqn:Hcs. simpl in Hc.
  rewrite (Hk a s'). subst s'. rewrite Hblind. simpl.
  now rewrite app_assoc.
Qed.

Lemma appends_for_each_add (X : Type) (f : X -> element) (rows : list X) :
  appends (for_each rows (fun row => add_to_m (f row) ;; ret tt))
          (fun _ => map f rows).
Proof.
  induction rows as [|row rows IH]; simpl for_each; simpl map.
  - apply appends_ret.
  - apply appends_bind with (es1 := fun _ => [f row])
                        (es2 := fun _ => map f rows).
    + apply appends_ext with (es := fun s => [f row] ++ []).
      * reflexivity.
      * apply appends_bind with (es1 := fun _ => [f row]) (es2 := fun _ => []).
        -- apply appends_add_to_m.
        -- intros s. apply appends_ret.
    + intros s. exact IH.
Qed.

(** The loop over the death rows fills the cluster where it stands on the
    map: the children before and after it are untouched. *)
Lemma for_each_add_to_cluster (X : Type) (g : X -> marker) (rows : list X) :
  forall (s : Store) (pre : list element) (name : string)
         (ms : list marker) (post : list element),
    children (m s) = pre ++ MarkerCluster name ms :: post ->
    snd (for_each rows (fun row => add_to_cluster (List.length pre) (g row)) s)
    = with_m s (with_children (m s)
                  (pre ++ MarkerCluster name (ms ++ map g rows) :: post)).
Proof.
  induction rows as [|row rows IH]; intros s pre name ms post Hch.
  - simpl. rewrite app_nil_r, <- Hch. symmetry. apply store_eta.
  - simpl for_each. unfold bind at 1. unfold add_to_cluster at 1.
    rewrite (IH _ pre name (ms ++ [g row]) post).
    + simpl. now rewrite <- app_assoc.
    + simpl. rewrite Hch. rewrite adjust_middle. reflexivity.
Qed.

Lemma appends_add_basemap (choice : string) :
  appends (add_basemap choice) (fun _ => basemap_layers choice).
Proof.
  unfold add_basemap, basemap_layers.
  destruct (choice =? "OpenStreetMap");
    [|destruct (choice =? "CartoDB Positron");
      [|destruct (choice =? "Esri WorldImagery")]];
    try apply appends_ret;
    (eapply appends_ext;
     [|apply appends_bind;
       [apply appends_add_to_m | intros s; apply appends_ret]]);
    reflexivity.
Qed.

Lemma appends_add_cholera_deaths (show : bool) :
  appends (add_cholera_deaths show)
          (fun s => deaths_layers show (deaths_gdf s)).
Proof.
  destruct show; simpl; [|apply appends_ret].
  intro s. unfold bind at 1. unfold add_to_m at 1.
  unfold bind at 1. unfold read at 1.
  rewrite (for_each_add_to_cluster death_marker _ _ (children (m s))
             "Cholera Deaths" [] []); reflexivity.
Qed.

Lemma appends_add_water_pumps (show : bool) :
  appends (add_water_pumps show)
          (fun s => pumps_layers show (pumps_gdf s)).
Proof.
  destruct show; simpl; [|apply appends_ret].
  apply appends_bind
    with (es1 := fun _ => [])
         (es2 := fun s => map (fun row => Child (pump_marker row))
                              (point_rows (pumps_gdf s))).
  - apply appends_read.
  - intros s. simpl. apply appends_for_each_add.
Qed.

Lemma appends_add_area_polygons (show : bool) :
  appends (add_area_polygons show)
          (fun s => areas_layers show (area_gdf s)).
Proof.
  destruct show; simpl; [|apply appends_ret].
  apply appends_bind with (es1 := fun _ => [])
                      (es2 := fun s => [area_layer (area_gdf s)]).
  - apply appends_read.
  - intros s. simpl.
    apply appends_ext with (es := fun _ => [area_layer (area_gdf s)] ++ []).
    + reflexivity.
    + apply appends_bind with (es1 := fun _ => [area_layer (area_gdf s)])
                          (es2 := fun _ => []).
      * apply appends_add_to_m.
      * intros s'. apply appends_ret.
Qed.

(** The whole build: the tile layer of the choice, then the deaths, the
    pumps, the areas and the control, appended in this order. *)
Lemma appends_build_map (cs : ControlState) :
  appends (build_map cs)
          (fun s => basemap_layers (basemap_choice cs)
                    ++ overlay_children cs (deaths_gdf s) (pumps_gdf s)
                                        (area_gdf s)).
Proof.
  unfold build_map, overlay_children.
  apply appends_seq; [apply appends_add_basemap | intros _ | easy].
  apply appends_seq; [apply appends_add_cholera_deaths | intros _ | easy].
  apply appends_seq; [apply appends_add_water_pumps | intros _ | easy].
  apply appends_seq; [apply appends_add_area_polygons | intros _ | easy].
  apply appends_ext with (es := fun _ => [LayerControl] ++ []); [reflexivity|].
  apply appends_seq; [apply appends_add_to_m | intros _ | easy].
  apply appends_ret.
Qed.

End ScriptFacts.

(** ** The page, in closed form *)

Section PageFacts.

Variables (cs : ControlState) (deaths pumps : PointGDF) (area : AreaGDF).

Lemma dashboard_store :
  snd (dashboard cs deaths pumps area)
  = with_m (create_map deaths pumps area)
           (mkMap (mean (geometry_y deaths), mean (geometry_x deaths)) 16 None
                  (basemap_layers (basemap_choice cs)
                   ++ overlay_children cs deaths pumps area)).
Proof.
  unfold dashboard, bind.
  pose proof (appends_build_map cs (create_map deaths pumps area)) as Hb.
  destruct (build_map cs (create_map deaths pumps area)) as [u s'].
  simpl in Hb. subst s'. reflexivity.
Qed.

Lemma dashboard_page :
  fst (dashboard cs deaths pumps area)
  = mkPage (mkMap (mean (geometry_y deaths), mean (geometry_x deaths)) 16 None
                  (basemap_layers (basemap_choice cs)
                   ++ overlay_children cs deaths pumps area))
           (len deaths) (len pumps).
Proof.
  unfold dashboard, bind.
  pose proof (appends_build_map cs (create_map deaths pumps area)) as Hb.
  destruct (build_map cs (create_map deaths pumps area)) as [u s'].
  simpl in Hb. subst s'. reflexivity.
Qed.

Lemma rendered_map_children :
  children (rendered_map cs deaths pumps area)
  = basemap_layers (basemap_choice cs)
    ++ overlay_children cs deaths pumps area.
Proof. unfold rendered_map. now rewrite dashboard_page. Qed.

Lemma rendered_map_location :
  location (rendered_map cs deaths pumps area)
  = (mean (geometry_y deaths), mean (geometry_x deaths)).
Proof. unfold rendered_map. now rewrite dashboard_page. Qed.

End PageFacts.

Section MeanFacts.

Lemma count_nonzero (n : nat) : ~ (inject_Z (Z.of_nat (S n)) == 0)%Q.
Proof. unfold Qeq, inject_Z. simpl. lia. Qed.

Lemma mean_times_count (l : list Q) :
  l <> [] ->
  exists q, mean l = Some q
            /\ (q * inject_Z (Z.of_nat (List.length l)) == Qsum l)%Q.
Proof.
  destruct l as [|a l]; [congruence|]. intros _.
  eexists. split; [reflexivity|].
  rewrite Qmult_comm. apply Qmult_div_r. apply count_nonzero.
Qed.

End MeanFacts.

Section AppFacts.

Variable to_crs : AreaGDF -> string -> result AreaGDF.
Variable render : Map -> result unit.
Variables (cs : ControlState) (deaths_df pumps_df : DataFrame).
Variable polys : AreaGDF.

Lemma app_load_raises (e : exception) :
  load_area_shapefile to_crs polys = Raised e ->
  app to_crs render cs deaths_df pumps_df polys = Raised e.
Proof. intros Hload. unfold app, load_data. now rewrite Hload. Qed.

Lemma app_empty_deaths (area : AreaGDF) :
  load_area_shapefile to_crs polys = Returned area ->
  deaths_df = [] ->
  app to_crs render cs deaths_df pumps_df polys
  = Raised (Exception "ValueError").
Proof.
  intros Hload ->. unfold app, load_data. now rewrite Hload.
Qed.

Lemma app_renders (area : AreaGDF) :
  load_area_shapefile to_crs polys = Returned area ->
  deaths_df <> [] ->
  app to_crs render cs deaths_df pumps_df polys
  = match render (rendered_map cs (fst (load_data deaths_df pumps_df))
                               (snd (load_data deaths_df pumps_df)) area) with
    | Raised e => Raised e
    | Returned _ =>
        Returned (fst (dashboard cs (fst (load_data deaths_df pumps_df))
                                 (snd (load_data deaths_df pumps_df)) area))
    end.
Proof.
  intros Hload Hne. unfold app, load_data. rewrite Hload.
  destruct deaths_df as [|r rows]; [congruence|]. reflexivity.
Qed.

Lemma app_returned (page : Page) :
  app to_crs render cs deaths_df pumps_df polys = Returned page ->
  exists area : AreaGDF,
    load_area_shapefile to_crs polys = Returned area
    /\ deaths_df <> []
    /\ render (rendered_map cs (fst (load_data deaths_df pumps_df))
                            (snd (load_data deaths_df pumps_df)) area)
       = Returned tt
    /\ page = fst (dashboard cs (fst (load_data deaths_df pumps_df))
                             (snd (load_data deaths_df pumps_df)) area).
Proof.
  intros Happ.
  destruct (load_area_shapefile to_crs polys) as [area|e] eqn:Hload.
  - exists area. split; [reflexivity|].
    destruct deaths_df as [|r rows] eqn:Hd.
    + rewrite <- Hd in Happ.
      rewrite (app_empty_deaths Hload Hd) in Happ. discriminate Happ.
    + rewrite <- Hd in *.
      assert (Hne : deaths_df <> []) by (rewrite Hd; discriminate).
      rewrite (app_renders Hload Hne) in Happ.
      split; [exact Hne|].
      destruct (render _) as [[]|e]; [|discriminate Happ].
      split; [reflexivity | now injection Happ].
  - rewrite (app_load_raises Hload) in Happ. discriminate Happ.
Qed.


End AppFacts.

(** ** The map centre *)

(** C1, as stated, fails on the scenario with both point layers on: the
    centre the script computes is not the mean over the deaths and the
    pump together (the longitudes are -31/300 and -41/400). *)
Lemma center_is_not_pooled_mean :
  ~ same_center
      (location (rendered_map
                   (Scenario.all_layers "OpenStreetMap")
                   (fst (load_data Scenario.deaths_df Scenario.pumps_df))
                   (snd (load_data Scenario.deaths_df Scenario.pumps_df))
                   Scenario.polys))
      (spec_center
         (Scenario.all_layers "OpenStreetMap")
         (fst (load_data Scenario.deaths_df Scenario.pumps_df))
         (snd (load_data Scenario.deaths_df Scenario.pumps_df))).
Proof.
  rewrite rendered_map_location.
  intros [_ Hlon]. vm_compute in Hlon. discriminate Hlon.
Qed.

(** C1 (amended): for every dataset with at least one death row and every
    control state, the centre of the map is the arithmetic mean of the
    death points alone -- latitude the mean of the deaths table's [x]
    column, longitude the mean of its [y] column -- whatever the toggles,
    the basemap, the pumps and the areas are.  On the scenario's three
    deaths and one pump the centre is (51.5, -31/300), about
    (51.5, -0.1033), for every control state. *)
Theorem center_is_mean_of_deaths :
  (forall (cs : ControlState) (deaths_df pumps_df : DataFrame)
          (area : AreaGDF),
      deaths_df <> [] ->
      exists lat lon : Q,
        location (rendered_map cs (fst (load_data deaths_df pumps_df))
                               (snd (load_data deaths_df pumps_df)) area)
        = (Some lat, Some lon)
        /\ (lat * inject_Z (Z.of_nat (List.length deaths_df))
            == Qsum (column_x deaths_df))%Q
        /\ (lon * inject_Z (Z.of_nat (List.length deaths_df))
            == Qsum (column_y deaths_df))%Q)
  /\ (forall (cs : ControlState) (area : AreaGDF),
         exists lat lon : Q,
           location (rendered_map cs
                       (fst (load_data Scenario.deaths_df Scenario.pumps_df))
                       (snd (load_data Scenario.deaths_df Scenario.pumps_df))
                       area)
           = (Some lat, Some lon)
           /\ (lat == 515 # 10)%Q /\ (lon == -31 # 300)%Q
           /\ (-10334 # 100000 < lon)%Q /\ (lon < -10333 # 100000)%Q).
Proof.
  split.
  - intros cs deaths_df pumps_df area Hne.
    rewrite rendered_map_location. simpl fst.
    rewrite loaded_geometry_y, loaded_geometry_x.
    destruct (mean_times_count (l := column_x deaths_df)) as (lat & Elat & Hlat).
    { unfold column_x. destruct deaths_df; [congruence | discriminate]. }
    destruct (mean_times_count (l := column_y deaths_df)) as (lon & Elon & Hlon).
    { unfold column_y. destruct deaths_df; [congruence | discriminate]. }
    exists lat, lon. rewrite Elat, Elon.
    unfold column_x, column_y in Hlat, Hlon. rewrite length_map in Hlat, Hlon.
    repeat split; assumption.
  - intros cs area. rewrite rendered_map_location.
    eexists. eexists. split; [reflexivity|].
    repeat split; vm_compute; reflexivity.
Qed.

Lemma center_is_mean_of_deaths_witness :
  Scenario.deaths_df <> []
  /\ exists lat lon : Q,
      location (rendered_map (Scenario.all_layers "CartoDB Positron")
                  (fst (load_data Scenario.deaths_df Scenario.pumps_df))
                  (snd (load_data Scenario.deaths_df Scenario.pumps_df))
                  Scenario.polys)
      = (Some lat, Some lon)
      /\ (lat * inject_Z (Z.of_nat (List.length Scenario.deaths_df))
          == Qsum (column_x Scenario.deaths_df))%Q
      /\ (lon * inject_Z (Z.of_nat (List.length Scenario.deaths_df))
          == Qsum (column_y Scenario.deaths_df))%Q.
Proof.
  split.
  - discriminate.
  - apply (proj1 center_is_mean_of_deaths). discriminate.
Defined.

(** ** The basemap *)


Section BasemapFacts.

Lemma overlay_has_no_tiles (cs : ControlState) (deaths pumps : PointGDF)
      (area : AreaGDF) :
  filter is_tile_layer (overlay_children cs deaths pumps area) = [].
Proof.
  unfold overlay_children, deaths_layers, pumps_layers, areas_layers.
  rewrite !filter_app.
  destruct (show_deaths cs), (show_pumps cs), (show_area cs); simpl;
    try reflexivity;
    induction (point_rows pumps) as [|row rows IH]; simpl; auto.
Qed.

Lemma overlay_is_tile_free (cs : ControlState) (deaths pumps : PointGDF)
      (area : AreaGDF) :
  filter (fun e => negb (is_tile_layer e))
         (overlay_children cs deaths pumps area)
  = overlay_children cs deaths pumps area.
Proof.
  apply forallb_filter_id.
  unfold overlay_children, deaths_layers, pumps_layers, areas_layers.
  rewrite !forallb_app.
  destruct (show_deaths cs), (show_pumps cs), (show_area cs); simpl;
    try reflexivity;
    induction (point_rows pumps) as [|row rows IH]; simpl; auto.
Qed.

Lemma basemap_layers_are_tiles (choice : string) :
  forallb is_tile_layer (basemap_layers choice) = true.
Proof.
  unfold basemap_layers.
  destruct (choice =? "OpenStreetMap"); [reflexivity|].
  destruct (choice =? "CartoDB Positron"); [reflexivity|].
  destruct (choice =? "Esri WorldImagery"); reflexivity.
Qed.

Lemma tile_layers_rendered (cs : ControlState) (deaths pumps : PointGDF)
      (area : AreaGDF) :
  tile_layers (rendered_map cs deaths pumps area)
  = basemap_layers (basemap_choice cs).
Proof.
  unfold tile_layers. rewrite rendered_map_children, filter_app.
  rewrite overlay_has_no_tiles, app_nil_r.
  apply forallb_filter_id, basemap_layers_are_tiles.
Qed.

Lemma non_tile_children_rendered (cs : ControlState) (deaths pumps : PointGDF)
      (area : AreaGDF) :
  non_tile_children (rendered_map cs deaths pumps area)
  = overlay_children cs deaths pumps area.
Proof.
  unfold non_tile_children. rewrite rendered_map_children, filter_app.
  rewrite overlay_is_tile_free.
  replace (filter (fun e => negb (is_tile_layer e))
                  (basemap_layers (basemap_choice cs))) with (@nil element);
    [reflexivity|].
  pose proof (basemap_layers_are_tiles (basemap_choice cs)) as Htiles.
  induction (basemap_layers (basemap_choice cs)) as [|e es IH];
    [reflexivity|].
  simpl in Htiles. apply andb_prop in Htiles as [He Hes].
  simpl. rewrite He. simpl. auto.
Qed.



End BasemapFacts.



(** ** The loader's geometry *)

(** C3: for every row of either point table the loader builds the
    geometry [Point(row.y, row.x)]: the table's [y] column is the
    geometry's x axis and the table's [x] column its y axis; the loaded
    frame keeps the rows in order, each next to this geometry. *)
Theorem geometry_is_point_y_x :
  forall deaths_df pumps_df : DataFrame,
    point_rows (fst (load_data deaths_df pumps_df))
    = map (fun r => (r, mkPoint (row_y r) (row_x r))) deaths_df
    /\ point_rows (snd (load_data deaths_df pumps_df))
       = map (fun r => (r, mkPoint (row_y r) (row_x r))) pumps_df
    /\ Forall (fun rp : Row * Point =>
                 geom_x (snd rp) = row_y (fst rp)
                 /\ geom_y (snd rp) = row_x (fst rp))
              (point_rows (fst (load_data deaths_df pumps_df))
               ++ point_rows (snd (load_data deaths_df pumps_df))).
Proof.
  intros deaths_df pumps_df. unfold load_data. simpl fst. simpl snd.
  rewrite !GeoDataFrame_rows. repeat split.
  apply Forall_app. split; apply Forall_map, Forall_forall;
    intros r _; split; reflexivity.
Qed.





(** ** Normalisation *)

(** C6: a polygon frame whose declared reference system is already
    EPSG:4326 comes back from the normaliser as it is -- the same
    coordinates, no reprojection called -- whatever the reprojection
    would do; so normalising what the normaliser returned for it returns
    the same again. *)
Theorem normalizing_target_system_is_identity :
  forall (to_crs : AreaGDF -> string -> result AreaGDF) (polys : AreaGDF),
    crs polys = EPSG4326 ->
    load_area_shapefile to_crs polys = Returned polys
    /\ (forall g : AreaGDF,
           load_area_shapefile to_crs polys = Returned g ->
           area_rows g = area_rows polys
           /\ load_area_shapefile to_crs g = Returned g).
Proof.
  intros to_crs polys Hcrs.
  assert (Hid : load_area_shapefile to_crs polys = Returned polys).
  { unfold load_area_shapefile. rewrite Hcrs, String.eqb_refl. reflexivity. }
  split; [exact Hid|].
  intros g Hg. rewrite Hid in Hg. injection Hg as <-.
  split; [reflexivity | exact Hid].
Qed.

Lemma normalizing_target_system_is_identity_witness :
  crs Scenario.polys = EPSG4326
  /\ load_area_shapefile Scenario.shifting_to_crs Scenario.polys
     = Returned Scenario.polys.
Proof.
  split; [reflexivity|].
  exact (proj1 (normalizing_target_system_is_identity
                  Scenario.shifting_to_crs Scenario.polys eq_refl)).
Defined.

(** X7: the normaliser is idempotent on every frame it accepts, not only
    on those already in the target system: whenever the reprojection
    declares the system it was asked for, normalising what the
    normaliser returned returns it again, without a second
    reprojection. *)
Lemma load_area_shapefile_idempotent
      (to_crs : AreaGDF -> string -> result AreaGDF) :
  (forall g c g', to_crs g c = Returned g' -> crs g' = c) ->
  forall polys g : AreaGDF,
    load_area_shapefile to_crs polys = Returned g ->
    load_area_shapefile to_crs g = Returned g.
Proof.
  intros Hdecl polys g Hload.
  assert (Hcrs : crs g = EPSG4326).
  { unfold load_area_shapefile in Hload.
    destruct (String.eqb_spec (crs polys) EPSG4326) as [Heq | Hneq];
      simpl in Hload.
    - now injection Hload as <-.
    - now apply Hdecl in Hload. }
  unfold load_area_shapefile. rewrite Hcrs, String.eqb_refl. reflexivity.
Qed.

(** ** Layer order and the layer control *)

Section OrderFacts.









End OrderFacts.



(** ** The dataset is only read *)

(** C5: for every dataset and every control state, building the map
    layers leaves the dataset as it was: from any store, the deaths, the
    pumps and the areas after the build are the ones before it, and the
    map after the build is the map before it with children appended that
    are a function of the control state and the dataset alone.  The same
    holds for the whole script up to the summary. *)
Theorem building_leaves_dataset_unchanged :
  forall (cs : ControlState),
    (forall s : Store,
        let s' := exec (build_map cs) s in
        deaths_gdf s' = deaths_gdf s
        /\ pumps_gdf s' = pumps_gdf s
        /\ area_gdf s' = area_gdf s
        /\ m s' = with_children (m s)
                    (children (m s)
                     ++ basemap_layers (basemap_choice cs)
                     ++ overlay_children cs (deaths_gdf s) (pumps_gdf s)
                                         (area_gdf s)))
    /\ (forall (deaths pumps : PointGDF) (area : AreaGDF),
           let s' := snd (dashboard cs deaths pumps area) in
           deaths_gdf s' = deaths
           /\ pumps_gdf s' = pumps
           /\ area_gdf s' = area).
Proof.
  intros cs. split.
  - intros s s'. subst s'. unfold exec.
    rewrite (appends_build_map cs s). simpl. repeat split.
  - intros deaths pumps area s'. subst s'.
    rewrite dashboard_store. simpl. repeat split.
Qed.

(** ** The basemap touches nothing but the tiles *)

(** C9: two runs on the same dataset with the same toggles that differ
    only in the basemap (any two strings, the three enumerated ones
    included) produce the same data layers and layer control, the same
    centre and zoom, and the same two summary counts; in each run the
    children of the map are the tile layers of its basemap followed by
    those common children. *)
Theorem basemap_noninterference :
  forall (deaths_on pumps_on area_on : bool) (basemap1 basemap2 : string)
         (deaths pumps : PointGDF) (area : AreaGDF),
    let page1 :=
      fst (dashboard (mkControl deaths_on pumps_on area_on basemap1)
                     deaths pumps area) in
    let page2 :=
      fst (dashboard (mkControl deaths_on pumps_on area_on basemap2)
                     deaths pumps area) in
    non_tile_children (st_folium page1) = non_tile_children (st_folium page2)
    /\ In LayerControl (non_tile_children (st_folium page1))
    /\ location (st_folium page1) = location (st_folium page2)
    /\ zoom_start (st_folium page1) = zoom_start (st_folium page2)
    /\ total_death_points page1 = total_death_points page2
    /\ total_water_pumps page1 = total_water_pumps page2
    /\ children (st_folium page1)
       = basemap_layers basemap1 ++ non_tile_children (st_folium page1)
    /\ children (st_folium page2)
       = basemap_layers basemap2 ++ non_tile_children (st_folium page2)
    /\ tile_layers (st_folium page1) = basemap_layers basemap1
    /\ tile_layers (st_folium page2) = basemap_layers basemap2.
Proof.
  intros deaths_on pumps_on area_on basemap1 basemap2 deaths pumps area
         page1 page2.
  pose proof (non_tile_children_rendered
                (mkControl deaths_on pumps_on area_on basemap1)
                deaths pumps area) as Hn1.
  pose proof (non_tile_children_rendered
                (mkControl deaths_on pumps_on area_on basemap2)
                deaths pumps area) as Hn2.
  pose proof (tile_layers_rendered
                (mkControl deaths_on pumps_on area_on basemap1)
                deaths pumps area) as Ht1.
  pose proof (tile_layers_rendered
                (mkControl deaths_on pumps_on area_on basemap2)
                deaths pumps area) as Ht2.
  unfold rendered_map in Hn1, Hn2, Ht1, Ht2.
  fold page1 in Hn1, Ht1. fold page2 in Hn2, Ht2.
  rewrite Hn1, Hn2, Ht1, Ht2.
  assert (E1 : page1 = _) by apply dashboard_page.
  assert (E2 : page2 = _) by apply dashboard_page.
  rewrite E1, E2. simpl.
  repeat split.
  unfold overlay_children. rewrite !in_app_iff. simpl. tauto.
Qed.

(** ** Clustering *)

(** C10: for every dataset and every control state -- the script has no
    other configuration -- the deaths, when shown, are all in the one
    marker cluster on the map, one circle marker per death row, and no
    circle marker is ever a child of the map itself; the pumps, when
    shown, are each a marker that is a child of the map itself, and every
    cluster on the map holds death circle markers only. *)
Theorem clustering_is_fixed :
  forall (cs : ControlState) (deaths pumps : PointGDF) (area : AreaGDF),
    let mp := rendered_map cs deaths pumps area in
    (show_deaths cs = true ->
     In (MarkerCluster "Cholera Deaths" (map death_marker (point_rows deaths)))
        (children mp))
    /\ (forall (loc : Q * Q) (radius : Z) (color : string) (fill : bool)
               (opacity : Q) (popup : string),
           ~ In (Child (CircleMarker loc radius color fill opacity popup))
                (children mp))
    /\ (show_pumps cs = true ->
        forall row : Row * Point,
          In row (point_rows pumps) ->
          In (Child (pump_marker row)) (children mp))
    /\ (forall (name : string) (ms : list marker) (mk : marker),
           In (MarkerCluster name ms) (children mp) ->
           In mk ms ->
           exists row : Row * Point,
             In row (point_rows deaths) /\ mk = death_marker row).
Proof.
  intros cs deaths pumps area mp. subst mp.
  rewrite rendered_map_children.
  pose proof (basemap_layers_are_tiles (basemap_choice cs)) as Ht.
  rewrite forallb_forall in Ht.
  unfold overlay_children, deaths_layers, pumps_layers, areas_layers.
  repeat split.
  - intros ->. rewrite !in_app_iff. simpl. tauto.
  - intros loc radius color fill opacity popup.
    rewrite !in_app_iff. intros [H | [H | [H | [H | H]]]].
    + apply Ht in H. discriminate H.
    + destruct (show_deaths cs); simpl in H;
        [destruct H as [H | []]; discriminate H | contradiction].
    + destruct (show_pumps cs); simpl in H; [|contradiction].
      apply in_map_iff in H as (row & Hrow & _). discriminate Hrow.
    + destruct (show_area cs); simpl in H;
        [destruct H as [H | []]; discriminate H | contradiction].
    + destruct H as [H | []]. discriminate H.
  - intros -> row Hrow. rewrite !in_app_iff. right. right. left.
    apply in_map_iff. exists row. split; [reflexivity | exact Hrow].
  - intros name ms mk Hin Hmk.
    rewrite !in_app_iff in Hin. destruct Hin as [H | [H | [H | [H | H]]]].
    + apply Ht in H. discriminate H.
    + destruct (show_deaths cs); simpl in H; [|contradiction].
      destruct H as [H | []]. injection H as <- <-.
      apply in_map_iff in Hmk as (row & <- & Hrow).
      exists row. split; [exact Hrow | reflexivity].
    + destruct (show_pumps cs); simpl in H; [|contradiction].
      apply in_map_iff in H as (row & Hrow & _). discriminate Hrow.
    + destruct (show_area cs); simpl in H;
        [destruct H as [H | []]; discriminate H | contradiction].
    + destruct H as [H | []]. discriminate H.
Qed.

Lemma clustering_is_fixed_witness :
  In (MarkerCluster "Cholera Deaths"
        (map death_marker
             (point_rows
                (fst (load_data Scenario.deaths_df Scenario.pumps_df)))))
     (children
        (rendered_map (Scenario.all_layers "OpenStreetMap")
           (fst (load_data Scenario.deaths_df Scenario.pumps_df))
           (snd (load_data Scenario.deaths_df Scenario.pumps_df))
           Scenario.polys))
  /\ In (Child (Marker (515 # 10, -1 # 10)%Q "Water Pump"
                       (mkIcon "blue" "tint" "fa")))
        (children
           (rendered_map (Scenario.all_layers "OpenStreetMap")
              (fst (load_data Scenario.deaths_df Scenario.pumps_df))
              (snd (load_data Scenario.deaths_df Scenario.pumps_df))
              Scenario.polys)).
Proof.
  destruct (clustering_is_fixed
              (Scenario.all_layers "OpenStreetMap")
              (fst (load_data Scenario.deaths_df Scenario.pumps_df))
              (snd (load_data Scenario.deaths_df Scenario.pumps_df))
              Scenario.polys) as (Hdeaths & _ & Hpumps & _).
  split.
  - apply Hdeaths. reflexivity.
  - apply (Hpumps eq_refl
             (mkRow (515 # 10) (-1 # 10) [], mkPoint (-1 # 10) (515 # 10))).
    simpl. left. reflexivity.
Defined.

(** ** Tooltips *)

Section TooltipFacts.

Lemma property_of_key (props : list (string * value)) :
  NoDup (map fst props) ->
  map (fun k => (k, property props k)) (map fst props)
  = map (fun cv : string * value => (fst cv, Some (snd cv))) props.
Proof.
  induction props as [|[k v] props IH]; intros Hnd; [reflexivity|].
  simpl in Hnd. inversion Hnd as [|k' ks Hfresh Hnd']; subst.
  simpl. rewrite String.eqb_refl. f_equal.
  rewrite <- (IH Hnd'). apply map_ext_in. intros k' Hk'.
  destruct (String.eqb_spec k k') as [-> | _]; [contradiction | reflexivity].
Qed.

Lemma tooltip_of_row (cols : list string) (row : list value) :
  NoDup cols ->
  List.length row = List.length cols ->
  tooltip_lines
    (mkTooltip (filter (fun col => negb (col =? "geometry")) cols)
               (filter (fun col => negb (col =? "geometry")) cols))
    (to_feature cols row)
  = attribute_pairs cols row.
Proof.
  intros Hnd Hlen. unfold tooltip_lines, attribute_pairs, to_feature. simpl.
  rewrite (map_combine_diag
             (fun a b : string =>
                (b, property
                      (filter (fun cv : string * value =>
                                 negb (fst cv =? "geometry"))
                              (combine cols row)) a))).
  assert (Hkeys :
            map fst (filter (fun cv : string * value =>
                               negb (fst cv =? "geometry"))
                            (combine cols row))
            = filter (fun col => negb (col =? "geometry")) cols).
  { rewrite (filter_on_fst (fun col => negb (col =? "geometry"))).
    rewrite map_fst_combine; [reflexivity | now symmetry]. }
  rewrite <- Hkeys. apply property_of_key.
  rewrite Hkeys. now apply NoDup_filter.
Qed.

End TooltipFacts.

(** C8: when the areas are shown, the map carries one GeoJSON layer, made
    of one feature per area row in row order, and over the feature of
    every row its tooltip lists exactly the row's columns other than the
    geometry, in column order, each as the column's name with the row's
    value (the frame's columns being distinct and every row having one
    cell per column, as in any data frame). *)
Theorem tooltip_lists_attribute_fields :
  forall (cs : ControlState) (deaths pumps : PointGDF) (area : AreaGDF),
    show_area cs = true ->
    NoDup (columns area) ->
    Forall (fun row => List.length row = List.length (columns area))
           (area_rows area) ->
    exists tt : GeoJsonTooltip,
      In (GeoJson (to_json area) "Cholera Area Polygons" area_style tt)
         (children (rendered_map cs deaths pumps area))
      /\ (forall data name style tt',
             In (GeoJson data name style tt')
                (children (rendered_map cs deaths pumps area)) ->
             data = to_json area /\ tt' = tt)
      /\ List.length (to_json area) = List.length (area_rows area)
      /\ (forall (i : nat) (row : list value),
             nth_error (area_rows area) i = Some row ->
             exists f : Feature,
               nth_error (to_json area) i = Some f
               /\ tooltip_lines tt f = attribute_pairs (columns area) row).
Proof.
  intros cs deaths pumps area Hshow Hnd Hrows.
  exists (mkTooltip (attribute_columns area) (attribute_columns area)).
  rewrite rendered_map_children.
  pose proof (basemap_layers_are_tiles (basemap_choice cs)) as Ht.
  rewrite forallb_forall in Ht.
  unfold overlay_children, deaths_layers, pumps_layers, areas_layers.
  rewrite Hshow.
  assert (Hone : forall data name style tt',
             In (GeoJson data name style tt')
                (basemap_layers (basemap_choice cs)
                 ++ (if show_deaths cs
                     then [MarkerCluster "Cholera Deaths"
                             (map death_marker (point_rows deaths))]
                     else [])
                 ++ (if show_pumps cs
                     then map (fun row => Child (pump_marker row))
                              (point_rows pumps)
                     else [])
                 ++ [area_layer area] ++ [LayerControl]) ->
             data = to_json area
             /\ tt' = mkTooltip (attribute_columns area)
                                (attribute_columns area)).
  { intros data name style tt' Hin.
    rewrite !in_app_iff in Hin.
    destruct Hin as [H | [H | [H | [H | H]]]].
    - apply Ht in H. discriminate H.
    - destruct (show_deaths cs); simpl in H;
        [destruct H as [H | []]; discriminate H | contradiction].
    - destruct (show_pumps cs); simpl in H; [|contradiction].
      apply in_map_iff in H as (row & Hrow & _). discriminate Hrow.
    - destruct H as [H | []]. unfold area_layer in H.
      injection H as <- _ _ <-. split; reflexivity.
    - destruct H as [H | []]. discriminate H. }
  split; [|split; [exact Hone|split]].
  - rewrite !in_app_iff. simpl. unfold area_layer. tauto.
  - unfold to_json. apply length_map.
  - intros i row Hi. exists (to_feature (columns area) row). split.
    + unfold to_json. now apply map_nth_error.
    + apply tooltip_of_row; [exact Hnd|].
      rewrite Forall_forall in Hrows. apply Hrows.
      eapply nth_error_In. exact Hi.
Qed.

Lemma tooltip_lists_attribute_fields_witness :
  show_area (Scenario.all_layers "OpenStreetMap") = true
  /\ NoDup (columns Scenario.polys)
  /\ Forall (fun row => List.length row = List.length (columns Scenario.polys))
            (area_rows Scenario.polys)
  /\ attribute_pairs (columns Scenario.polys)
                     [VStr "Soho"; VNum 12;
                      VGeom [(0, 0); (0, 1); (1, 1)]%Q]
     = [("name", Some (VStr "Soho")); ("cases", Some (VNum 12))]
  /\ exists tt : GeoJsonTooltip,
      forall (i : nat) (row : list value),
        nth_error (area_rows Scenario.polys) i = Some row ->
        exists f : Feature,
          nth_error (to_json Scenario.polys) i = Some f
          /\ tooltip_lines tt f = attribute_pairs (columns Scenario.polys) row.
Proof.
  assert (Hnd : NoDup (columns Scenario.polys)).
  { simpl. repeat constructor; simpl; intuition discriminate. }
  assert (Hrows : Forall (fun row => List.length row
                                     = List.length (columns Scenario.polys))
                         (area_rows Scenario.polys)).
  { simpl. repeat constructor. }
  split; [reflexivity|]. split; [exact Hnd|]. split; [exact Hrows|].
  split; [reflexivity|].
  destruct (tooltip_lists_attribute_fields
              (Scenario.all_layers "OpenStreetMap")
              (fst (load_data Scenario.deaths_df Scenario.pumps_df))
              (snd (load_data Scenario.deaths_df Scenario.pumps_df))
              Scenario.polys eq_refl Hnd Hrows)
    as (tt & _ & _ & _ & Hlines).
  exists tt. exact Hlines.
Defined.

(** ** Further properties of the script *)

Section MarkerFacts.

Variables (cs : ControlState) (deaths pumps : PointGDF) (area : AreaGDF).

Lemma clustered_markers_rendered :
  clustered_markers (rendered_map cs deaths pumps area)
  = if show_deaths cs then map death_marker (point_rows deaths) else [].
Proof.
  unfold clustered_markers. rewrite rendered_map_children.
  unfold overlay_children, deaths_layers, pumps_layers, areas_layers.
  rewrite !flat_map_app.
  assert (Hbase : flat_map (fun e => match e with
                                     | MarkerCluster _ ms => ms
                                     | _ => []
                                     end)
                           (basemap_layers (basemap_choice cs)) = []).
  { unfold basemap_layers.
    destruct (basemap_choice cs =? "OpenStreetMap"); [reflexivity|].
    destruct (basemap_choice cs =? "CartoDB Positron"); [reflexivity|].
    destruct (basemap_choice cs =? "Esri WorldImagery"); reflexivity. }
  assert (Hpumps : forall rows : list (Row * Point),
             flat_map (fun e => match e with
                                | MarkerCluster _ ms => ms
                                | _ => []
                                end)
                      (map (fun row => Child (pump_marker row)) rows) = []).
  { induction rows as [|row rows IH]; simpl; [reflexivity | exact IH]. }
  rewrite Hbase.
  destruct (show_deaths cs), (show_pumps cs), (show_area cs); simpl;
    rewrite ?Hpumps, ?app_nil_r; reflexivity.
Qed.

Lemma bare_markers_rendered :
  bare_markers (rendered_map cs deaths pumps area)
  = if show_pumps cs then map pump_marker (point_rows pumps) else [].
Proof.
  unfold bare_markers. rewrite rendered_map_children.
  unfold overlay_children, deaths_layers, pumps_layers, areas_layers.
  rewrite !flat_map_app.
  assert (Hbase : flat_map (fun e => match e with
                                     | Child mk => [mk]
                                     | _ => []
                                     end)
                           (basemap_layers (basemap_choice cs)) = []).
  { unfold basemap_layers.
    destruct (basemap_choice cs =? "OpenStreetMap"); [reflexivity|].
    destruct (basemap_choice cs =? "CartoDB Positron"); [reflexivity|].
    destruct (basemap_choice cs =? "Esri WorldImagery"); reflexivity. }
  assert (Hpumps : forall rows : list (Row * Point),
             flat_map (fun e => match e with
                                | Child mk => [mk]
                                | _ => []
                                end)
                      (map (fun row => Child (pump_marker row)) rows)
             = map pump_marker rows).
  { induction rows as [|row rows IH]; simpl; [reflexivity | now rewrite IH]. }
  rewrite Hbase.
  destruct (show_deaths cs), (show_pumps cs), (show_area cs); simpl;
    rewrite ?Hpumps, ?app_nil_r; reflexivity.
Qed.

End MarkerFacts.

Section LoadedMarkerFacts.

Lemma loaded_death_locations (df : DataFrame) (c : string) :
  map marker_location
      (map death_marker (point_rows (GeoDataFrame df (points_of df) c)))
  = map row_location df.
Proof.
  rewrite GeoDataFrame_rows, !map_map. reflexivity.
Qed.

Lemma loaded_pump_locations (df : DataFrame) (c : string) :
  map marker_location
      (map pump_marker (point_rows (GeoDataFrame df (points_of df) c)))
  = map row_location df.
Proof.
  rewrite GeoDataFrame_rows, !map_map. reflexivity.
Qed.

Lemma death_markers_of_locations (df : DataFrame) (c : string) :
  map death_marker (point_rows (GeoDataFrame df (points_of df) c))
  = map (fun loc : Q * Q =>
           CircleMarker loc 3 "red" true (7 # 10) "Death Location")
        (map row_location df).
Proof.
  rewrite GeoDataFrame_rows, !map_map. reflexivity.
Qed.

Lemma pump_markers_of_locations (df : DataFrame) (c : string) :
  map (fun row => Child (pump_marker row))
      (point_rows (GeoDataFrame df (points_of df) c))
  = map (fun loc : Q * Q =>
           Child (Marker loc "Water Pump" (mkIcon "blue" "tint" "fa")))
        (map row_location df).
Proof.
  rewrite GeoDataFrame_rows, !map_map. reflexivity.
Qed.

Lemma columns_of_locations (df : DataFrame) :
  column_x df = map fst (map row_location df)
  /\ column_y df = map snd (map row_location df).
Proof.
  unfold column_x, column_y. rewrite !map_map. split; reflexivity.
Qed.

End LoadedMarkerFacts.

(** X1: every marker is drawn at [table x, table y] of its row.  For
    every control state and every pair of tables, the circle markers in
    the clusters of the map are, when the deaths are shown, located at
    the (x, y) of the death rows, one per row in row order, and the bare
    markers of the map are, when the pumps are shown, located at the
    (x, y) of the pump rows in row order; a hidden layer has no marker.
    The swap of the axes in the loader and the swap in the marker
    location cancel. *)
Theorem markers_sit_at_table_x_y :
  forall (cs : ControlState) (deaths_df pumps_df : DataFrame)
         (area : AreaGDF),
    let mp := rendered_map cs (fst (load_data deaths_df pumps_df))
                           (snd (load_data deaths_df pumps_df)) area in
    map marker_location (clustered_markers mp)
    = (if show_deaths cs then map row_location deaths_df else [])
    /\ map marker_location (bare_markers mp)
       = (if show_pumps cs then map row_location pumps_df else []).
Proof.
  intros cs deaths_df pumps_df area mp. subst mp.
  rewrite clustered_markers_rendered, bare_markers_rendered.
  unfold load_data. simpl fst. simpl snd.
  destruct (show_deaths cs), (show_pumps cs);
    rewrite ?loaded_death_locations, ?loaded_pump_locations;
    split; reflexivity.
Qed.

(** X2: the other columns of the point tables never reach the page.  Two
    runs under the same control state and the same polygons, on tables
    whose rows agree on x and y one by one, show the same page: the same
    map, children included, and the same two counts. *)
Theorem point_attributes_do_not_reach_the_page :
  forall (cs : ControlState) (deaths_df deaths_df' pumps_df pumps_df' : DataFrame)
         (area : AreaGDF),
    map row_location deaths_df = map row_location deaths_df' ->
    map row_location pumps_df = map row_location pumps_df' ->
    fst (dashboard cs (fst (load_data deaths_df pumps_df))
                   (snd (load_data deaths_df pumps_df)) area)
    = fst (dashboard cs (fst (load_data deaths_df' pumps_df'))
                     (snd (load_data deaths_df' pumps_df')) area).
Proof.
  intros cs d d' p p' area Hd Hp.
  rewrite !dashboard_page. unfold load_data. simpl fst. simpl snd.
  rewrite !loaded_geometry_y, !loaded_geometry_x, !loaded_len.
  destruct (columns_of_locations d) as [-> ->].
  destruct (columns_of_locations d') as [-> ->].
  unfold overlay_children, deaths_layers, pumps_layers.
  rewrite !death_markers_of_locations, !pump_markers_of_locations.
  rewrite <- Hd, <- Hp.
  f_equal.
  - rewrite <- (length_map row_location d), Hd. apply length_map.
  - rewrite <- (length_map row_location p), Hp. apply length_map.
Qed.

Lemma point_attributes_do_not_reach_the_page_witness :
  fst (dashboard (Scenario.all_layers "OpenStreetMap")
         (fst (load_data Scenario.deaths_df Scenario.pumps_df))
         (snd (load_data Scenario.deaths_df Scenario.pumps_df))
         Scenario.polys)
  = fst (dashboard (Scenario.all_layers "OpenStreetMap")
           (fst (load_data
                   (map (fun r => mkRow (row_x r) (row_y r)
                                        [("count", VNum 1)])
                        Scenario.deaths_df)
                   Scenario.pumps_df))
           (snd (load_data
                   (map (fun r => mkRow (row_x r) (row_y r)
                                        [("count", VNum 1)])
                        Scenario.deaths_df)
                   Scenario.pumps_df))
           Scenario.polys).
Proof.
  apply point_attributes_do_not_reach_the_page; reflexivity.
Defined.

(** X3: the two summary counts are the numbers of rows of the two
    tables, whatever the toggles and the basemap are, and they agree with
    what the map shows: whenever the script returns a page, the markers
    in the clusters number [Total Death Points] when the deaths are shown
    and none otherwise, and the bare markers number [Total Water Pumps]
    when the pumps are shown and none otherwise. *)
Theorem summary_counts_are_row_counts :
  forall (to_crs : AreaGDF -> string -> result AreaGDF)
         (render : Map -> result unit) (cs : ControlState)
         (deaths_df pumps_df : DataFrame) (polys : AreaGDF) (page : Page),
    app to_crs render cs deaths_df pumps_df polys = Returned page ->
    total_death_points page = List.length deaths_df
    /\ total_water_pumps page = List.length pumps_df
    /\ List.length (clustered_markers (st_folium page))
       = (if show_deaths cs then total_death_points page else 0%nat)
    /\ List.length (bare_markers (st_folium page))
       = (if show_pumps cs then total_water_pumps page else 0%nat).
Proof.
  intros to_crs render cs deaths_df pumps_df polys page Happ.
  apply app_returned in Happ as (area & _ & _ & _ & ->).
  unfold load_data. simpl fst. simpl snd.
  pose proof (loaded_len deaths_df EPSG4326) as Hd.
  pose proof (loaded_len pumps_df EPSG4326) as Hp.
  set (d := GeoDataFrame deaths_df (points_of deaths_df) EPSG4326) in *.
  set (p := GeoDataFrame pumps_df (points_of pumps_df) EPSG4326) in *.
  change (st_folium (fst (dashboard cs d p area)))
    with (rendered_map cs d p area).
  rewrite clustered_markers_rendered, bare_markers_rendered.
  rewrite dashboard_page.
  cbn [total_death_points total_water_pumps].
  rewrite Hd, Hp. split; [reflexivity|]. split; [reflexivity|].
  rewrite <- Hd, <- Hp. unfold len.
  destruct (show_deaths cs), (show_pumps cs);
    rewrite ?length_map; split; reflexivity.
Qed.

Lemma summary_counts_are_row_counts_witness :
  exists page : Page,
    app Scenario.shifting_to_crs Scenario.checking_render
        (mkControl true false true "MoonMap")
        Scenario.deaths_df Scenario.pumps_df Scenario.polys
    = Returned page
    /\ total_death_points page = 3%nat
    /\ total_water_pumps page = 1%nat
    /\ List.length (clustered_markers (st_folium page)) = 3%nat
    /\ List.length (bare_markers (st_folium page)) = 0%nat.
Proof.
  eexists. split; [reflexivity|].
  destruct (summary_counts_are_row_counts
              Scenario.shifting_to_crs Scenario.checking_render
              (mkControl true false true "MoonMap")
              Scenario.deaths_df Scenario.pumps_df Scenario.polys eq_refl)
    as (Hd & Hp & Hc & Hb).
  exact (conj Hd (conj Hp (conj Hc Hb))).
Defined.

Lemma load_area_shapefile_idempotent_witness :
  load_area_shapefile Scenario.shifting_to_crs Scenario.polys_osgb
  = Returned (mkAreaGDF
                (columns Scenario.polys)
                (map (map Scenario.shift_value) (area_rows Scenario.polys))
                EPSG4326)
  /\ load_area_shapefile Scenario.shifting_to_crs
       (mkAreaGDF
          (columns Scenario.polys)
          (map (map Scenario.shift_value) (area_rows Scenario.polys))
          EPSG4326)
     = Returned (mkAreaGDF
                   (columns Scenario.polys)
                   (map (map Scenario.shift_value) (area_rows Scenario.polys))
                   EPSG4326).
Proof.
  split; [reflexivity|].
  apply (@load_area_shapefile_idempotent Scenario.shifting_to_crs)
    with (polys := Scenario.polys_osgb).
  - intros g c g' Hg. injection Hg as <-. reflexivity.
  - reflexivity.
Defined.

Section ReprojectionFacts.

Variable to_crs : AreaGDF -> string -> result AreaGDF.



End ReprojectionFacts.







Section FeatureFacts.

Lemma property_defined (props : list (string * value)) (field : string) :
  In field (map fst props) -> exists v, property props field = Some v.
Proof.
  induction props as [|[k v] props IH]; simpl; [contradiction|].
  intros Hin. destruct (String.eqb_spec k field) as [_ | Hneq].
  - now exists v.
  - destruct Hin as [Heq | Hin]; [contradiction | now apply IH].
Qed.

Lemma feature_keys (cols : list string) (row : list value) :
  List.length row = List.length cols ->
  map fst (properties (to_feature cols row))
  = filter (fun col => negb (col =? "geometry")) cols.
Proof.
  intros Hlen. unfold to_feature. simpl.
  rewrite (filter_on_fst (fun col => negb (col =? "geometry"))).
  rewrite map_fst_combine; [reflexivity | now symmetry].
Qed.

Lemma feature_has_geometry (cols : list string) (row : list value) :
  List.length row = List.length cols ->
  In "geometry" cols ->
  exists g, feature_geometry (to_feature cols row) = Some g.
Proof.
  intros Hlen Hin. unfold to_feature. simpl.
  destruct (find (fun cv : string * value => fst cv =? "geometry")
                 (combine cols row)) as [cv|] eqn:Hfind.
  - now exists (snd cv).
  - exfalso.
    rewrite <- (map_fst_combine cols row) in Hin by now symmetry.
    apply in_map_iff in Hin as (cv & Hkey & Hcv).
    apply (find_none _ _ Hfind) in Hcv.
    rewrite Hkey in Hcv. discriminate Hcv.
Qed.

End FeatureFacts.

(** X10: the GeoJSON the script hands to folium fits its tooltip.  For a
    polygon frame whose rows have one cell per column, there is one
    feature per row; the property names of every feature are exactly the
    tooltip's fields, in the same order, so every field the tooltip asks
    for is defined on every feature; no feature has a property called
    geometry; and when the frame has a geometry column every feature
    carries a geometry. *)
Theorem features_carry_every_tooltip_field :
  forall area : AreaGDF,
    Forall (fun row => List.length row = List.length (columns area))
           (area_rows area) ->
    List.length (to_json area) = List.length (area_rows area)
    /\ Forall
         (fun f : Feature =>
            map fst (properties f) = attribute_columns area
            /\ ~ In "geometry" (map fst (properties f))
            /\ (forall field : string,
                   In field (attribute_columns area) ->
                   exists v, property (properties f) field = Some v)
            /\ (In "geometry" (columns area) ->
                exists g, feature_geometry f = Some g))
         (to_json area).
Proof.
  intros area Hrows. unfold to_json. split; [apply length_map|].
  apply Forall_map. eapply Forall_impl; [|exact Hrows].
  intros row Hlen. cbv beta in Hlen.
  pose proof (feature_keys (columns area) row Hlen) as Hkeys.
  fold (attribute_columns area) in Hkeys.
  split; [exact Hkeys|]. split; [|split].
  - rewrite Hkeys. unfold attribute_columns. intros Hin.
    apply filter_In in Hin as [_ Hng]. discriminate Hng.
  - intros field Hfield. apply property_defined. now rewrite Hkeys.
  - intros Hgeom. now apply feature_has_geometry.
Qed.

Lemma features_carry_every_tooltip_field_witness :
  List.length (to_json Scenario.polys) = 2%nat
  /\ Forall
       (fun f : Feature =>
          map fst (properties f) = ["name"; "cases"]
          /\ ~ In "geometry" (map fst (properties f))
          /\ (forall field : string,
                 In field ["name"; "cases"] ->
                 exists v, property (properties f) field = Some v)
          /\ (In "geometry" (columns Scenario.polys) ->
              exists g, feature_geometry f = Some g))
       (to_json Scenario.polys).
Proof.
  apply (features_carry_every_tooltip_field Scenario.polys).
  simpl. repeat constructor.
Defined.

Section ToggleFacts.

Lemma kept_basemap (cs : ControlState) (choice : string) :
  filter (kept cs) (basemap_layers choice) = basemap_layers choice.
Proof.
  unfold basemap_layers.
  destruct (choice =? "OpenStreetMap"); [reflexivity|].
  destruct (choice =? "CartoDB Positron"); [reflexivity|].
  destruct (choice =? "Esri WorldImagery"); reflexivity.
Qed.

Lemma kept_pumps (cs : ControlState) (rows : list (Row * Point)) :
  filter (kept cs) (map (fun row => Child (pump_marker row)) rows)
  = if show_pumps cs
    then map (fun row => Child (pump_marker row)) rows
    else [].
Proof.
  induction rows as [|row rows IH]; simpl.
  - now destruct (show_pumps cs).
  - unfold kept at 1. simpl. rewrite IH. now destruct (show_pumps cs).
Qed.

End ToggleFacts.

(** X11: a toggle only takes its own layer off the map.  For every
    control state, the children of the map are the children of the map
    drawn with all three layers on (same basemap, same dataset) from
    which the children of the disabled layers are removed; what remains
    keeps its order, and the centre and the zoom are the same. *)
Theorem toggles_only_filter_the_full_map :
  forall (cs : ControlState) (deaths pumps : PointGDF) (area : AreaGDF),
    let full :=
      rendered_map (mkControl true true true (basemap_choice cs))
                   deaths pumps area in
    let mp := rendered_map cs deaths pumps area in
    children mp = filter (kept cs) (children full)
    /\ location mp = location full
    /\ zoom_start mp = zoom_start full.
Proof.
  intros cs deaths pumps area full mp. subst full mp.
  rewrite !rendered_map_location, !rendered_map_children.
  split; [|split; [reflexivity|]].
  - unfold overlay_children, deaths_layers, pumps_layers, areas_layers.
    cbn [show_deaths show_pumps show_area basemap_choice].
    rewrite !filter_app, kept_basemap, kept_pumps.
    unfold kept. simpl.
    destruct (show_deaths cs), (show_pumps cs), (show_area cs); reflexivity.
  - unfold rendered_map. now rewrite !dashboard_page.
Qed.
